(** * Xiaomi Air Conditioning Companion: command encoder and status decoder

    A shallow embedding of [miio/airconditioningcompanion.py]: the four
    enumerations, the table [DEVICE_COMMAND_PRESETS], the properties of
    [AirConditioningCompanionStatus] and the method
    [AirConditioningCompanion.send_configuration], together with the
    fragment of Python they rely on (exceptions, [==], string slices,
    [str.replace], [str.upper], [hex], [int]). *)

From Stdlib Require Import ZArith QArith Qround Lia Ascii String.
From stdpp Require Import base option list strings gmap.

Local Close Scope Q_scope.
Local Open Scope Z_scope.

(** ** The fragment of Python used by the module *)

Module Py.

(** The exceptions the module can raise.  Python has one [ValueError]
    class; [value_error] records which message it carries. *)
Inductive value_error : Type :=
| invalid_literal (base : Z) (literal : string)
    (* invalid literal for int() with base <base>: <literal> *)
| not_a_valid (value : Z) (enum_class : string)
    (* <value> is not a valid <enum_class> *)
| float_nan.
    (* cannot convert float NaN to integer *)

Inductive exn : Type :=
| TypeError
| IndexError
| KeyError (key : string)
| OverflowError
| ValueError (why : value_error).

(** A computation either returns a value or raises. *)
Inductive result (A : Type) : Type :=
| Ok (a : A)
| Raise (e : exn).
Arguments Ok {A} a.
Arguments Raise {A} e.

#[global] Instance result_ret : MRet result := fun A a => Ok a.
#[global] Instance result_bind : MBind result := fun A B f r =>
  match r with
  | Ok a => f a
  | Raise e => Raise e
  end.

(** The objects that reach [==] and [str.replace] in this module.  A
    member of an [enum.Enum] class is a singleton known by its class and
    its name. *)
Inductive object : Type :=
| Bool (b : bool)
| Int (z : Z)
| Str (s : string)
| Member (enum_class name : string).

(** [a == b].  [bool] is a subclass of [int] and both compare by number;
    [str] compares by content; [enum.Enum] defines no [__eq__], so a
    member is equal to itself only and to no number or string. *)
Definition eq (a b : object) : bool :=
  match a, b with
  | Bool x, Bool y => Bool.eqb x y
  | Bool x, Int y => Z.b2z x =? y
  | Int x, Bool y => x =? Z.b2z y
  | Int x, Int y => x =? y
  | Str x, Str y => String.eqb x y
  | Member c n, Member c' n' => String.eqb c c' && String.eqb n n'
  | _, _ => false
  end.

(** [l[i]] for a constant index [i >= 0]. *)
Definition getitem (l : list string) (i : nat) : result string :=
  match l !! i with
  | Some x => Ok x
  | None => Raise IndexError
  end.

(** [key in d] and [d[key]] on a [dict] with [str] keys. *)
Definition contains {V : Type} (d : gmap string V) (key : string) : bool :=
  bool_decide (is_Some (d !! key)).

Definition subscript {V : Type} (d : gmap string V) (key : string)
  : result V :=
  match d !! key with
  | Some v => Ok v
  | None => Raise (KeyError key)
  end.

(** [s[start:]]. *)
Fixpoint slice_from (start : nat) (s : string) : string :=
  match start, s with
  | O, _ => s
  | S _, EmptyString => EmptyString
  | S n, String _ s' => slice_from n s'
  end.

(** [s[:stop]]. *)
Fixpoint slice_to (stop : nat) (s : string) : string :=
  match stop, s with
  | O, _ => EmptyString
  | S _, EmptyString => EmptyString
  | S n, String c s' => String c (slice_to n s')
  end.

(** [s[start:stop]] for constants [0 <= start], [0 <= stop]: both ends
    are clipped to the length, never an error. *)
Definition slice (start stop : nat) (s : string) : string :=
  slice_to (stop - start) (slice_from start s).

(** [s.startswith(p)]. *)
Fixpoint startswith (p s : string) : bool :=
  match p, s with
  | EmptyString, _ => true
  | String _ _, EmptyString => false
  | String a p', String b s' => Ascii.eqb a b && startswith p' s'
  end.

(** The scan of [str.replace] for a non-empty [old]: left to right,
    occurrences do not overlap.  [skip] counts the characters of a match
    still to be passed over. *)
Fixpoint replace_scan (old new : string) (skip : nat) (s : string) : string :=
  match s with
  | EmptyString => EmptyString
  | String c s' =>
      match skip with
      | S k => replace_scan old new k s'
      | O =>
          if startswith old s
          then new +:+ replace_scan old new (String.length old - 1) s'
          else String c (replace_scan old new O s')
      end
  end.

(** With an empty [old], [new] is put before every character and at the
    end. *)
Fixpoint replace_empty (new : string) (s : string) : string :=
  match s with
  | EmptyString => new
  | String c s' => new +:+ String c (replace_empty new s')
  end.

Definition str_replace (s old new : string) : string :=
  match old with
  | EmptyString => replace_empty new s
  | String _ _ => replace_scan old new O s
  end.

(** The method call [s.replace(old, new)]: both arguments must be [str],
    anything else is refused with a [TypeError]. *)
Definition replace (s : string) (old new : object) : result string :=
  match old, new with
  | Str o, Str n => Ok (str_replace s o n)
  | _, _ => Raise TypeError
  end.

(** [s.upper()] on the letters a-z; the module applies it to the output
    of [hex] only. *)
Definition upper_char (c : ascii) : ascii :=
  let n := nat_of_ascii c in
  if ((97 <=? n) && (n <=? 122))%nat then ascii_of_nat (n - 32) else c.

Fixpoint upper (s : string) : string :=
  match s with
  | EmptyString => EmptyString
  | String c s' => String (upper_char c) (upper s')
  end.

(** The digit for [0 <= d < 16], lowercase as [hex] prints it. *)
Definition hex_char (d : Z) : ascii :=
  match d with
  | 0 => "0" | 1 => "1" | 2 => "2" | 3 => "3" | 4 => "4" | 5 => "5"
  | 6 => "6" | 7 => "7" | 8 => "8" | 9 => "9" | 10 => "a" | 11 => "b"
  | 12 => "c" | 13 => "d" | 14 => "e" | _ => "f"
  end%char.

(** The digits of [n >= 0] in base 16, most significant first, put in
    front of [acc]. *)
Fixpoint hex_digits_fuel (fuel : nat) (n : Z) (acc : string) : string :=
  match fuel with
  | O => acc
  | S f =>
      if n <? 16 then String (hex_char n) acc
      else hex_digits_fuel f (n / 16) (String (hex_char (n mod 16)) acc)
  end.

Definition hex_digits (n : Z) : string :=
  hex_digits_fuel (S (Z.to_nat (Z.log2 n))) n EmptyString.

(** [hex(n)]: the sign, then [0x], then the digits of [abs(n)]. *)
Definition hex (n : Z) : string :=
  if n <? 0 then "-0x" +:+ hex_digits (- n) else "0x" +:+ hex_digits n.

(** A number passed where the signature says [float]: an [int], or a
    float, which is a rational, a NaN or an infinity. *)
Inductive number : Type :=
| IntNum (z : Z)
| FloatNum (q : Q)
| FloatNaN
| FloatInf (negative : bool).

(** [int(x)] on a number: a float is truncated towards zero. *)
Definition int_of_number (x : number) : result Z :=
  match x with
  | IntNum z => Ok z
  | FloatNum q => Ok (Qnum q ÷ Zpos (Qden q))
  | FloatNaN => Raise (ValueError float_nan)
  | FloatInf _ => Raise OverflowError
  end.

(** White space as [int] strips it (code points up to 255): tab to
    carriage return and the space, and of the code points above 127 the
    next-line and the no-break space.  The separators 28 to 31 are not
    stripped. *)
Definition is_space (c : ascii) : bool :=
  let n := nat_of_ascii c in
  (((9 <=? n) && (n <=? 13)) || (n =? 32) || (n =? 133) || (n =? 160))%nat.

(** The value of a character as a digit: 0-9, then a-z and A-Z as
    10 to 35. *)
Definition digit_value (c : ascii) : option Z :=
  let n := nat_of_ascii c in
  if ((48 <=? n) && (n <=? 57))%nat then Some (Z.of_nat n - 48)
  else if ((97 <=? n) && (n <=? 122))%nat then Some (Z.of_nat n - 87)
  else if ((65 <=? n) && (n <=? 90))%nat then Some (Z.of_nat n - 55)
  else None.

Fixpoint lstrip (s : string) : string :=
  match s with
  | EmptyString => EmptyString
  | String c s' => if is_space c then lstrip s' else s
  end.

Fixpoint rstrip (s : string) : string :=
  match s with
  | EmptyString => EmptyString
  | String c s' =>
      match rstrip s' with
      | EmptyString => if is_space c then EmptyString else String c EmptyString
      | r => String c r
      end
  end.

(** Digits of the literal after its first one: a single underscore may
    stand between two digits. *)
Fixpoint int_digits (base acc : Z) (after_underscore : bool) (s : string)
  : option Z :=
  match s with
  | EmptyString => if after_underscore then None else Some acc
  | String c s' =>
      if Ascii.eqb c "_" then
        if after_underscore then None else int_digits base acc true s'
      else
        match digit_value c with
        | Some d =>
            if d <? base then int_digits base (acc * base + d) false s'
            else None
        | None => None
        end
  end.

(** The literal without sign and prefix: not empty, and it does not start
    with an underscore. *)
Definition int_literal (base : Z) (s : string) : option Z :=
  match s with
  | EmptyString => None
  | String c _ => if Ascii.eqb c "_" then None else int_digits base 0 false s
  end.

(** The prefix [0x], [0o] or [0b] that [int] accepts when it agrees with
    the base, and the single underscore allowed after it. *)
Definition skip_prefix (base : Z) (s : string) : string :=
  match s with
  | String "0" (String p rest) =>
      let agrees :=
        ((base =? 16) && (Ascii.eqb p "x" || Ascii.eqb p "X"))
        || ((base =? 8) && (Ascii.eqb p "o" || Ascii.eqb p "O"))
        || ((base =? 2) && (Ascii.eqb p "b" || Ascii.eqb p "B")) in
      if agrees then
        match rest with
        | String "_" rest' => rest'
        | _ => rest
        end
      else s
  | _ => s
  end.

(** [int(s, base)] on a string, for [2 <= base <= 36]: white space around
    the literal, an optional sign, an optional prefix. *)
Definition int_of_str (s : string) (base : Z) : result Z :=
  let body := rstrip (lstrip s) in
  let signed :=
    match body with
    | String "+" r => (false, r)
    | String "-" r => (true, r)
    | _ => (false, body)
    end in
  match int_literal base (skip_prefix base signed.2) with
  | Some n => Ok (if signed.1 then - n else n)
  | None => Raise (ValueError (invalid_literal base s))
  end.

End Py.

Import Py.

(** ** The enumerations *)

Module OperationMode.
Inductive t : Type := Heat | Cool | Auto | Dehumidify | Ventilate.

Definition value (m : t) : Z :=
  match m with
  | Heat => 0 | Cool => 1 | Auto => 2 | Dehumidify => 3 | Ventilate => 4
  end.

Definition name (m : t) : string :=
  match m with
  | Heat => "Heat" | Cool => "Cool" | Auto => "Auto"
  | Dehumidify => "Dehumidify" | Ventilate => "Ventilate"
  end.

Definition to_object (m : t) : object := Member "OperationMode" (name m).

(** [OperationMode(v)]: the member with that value. *)
Definition of_value (v : Z) : result t :=
  match v with
  | 0 => Ok Heat | 1 => Ok Cool | 2 => Ok Auto | 3 => Ok Dehumidify
  | 4 => Ok Ventilate
  | _ => Raise (ValueError (not_a_valid v "OperationMode"))
  end.
End OperationMode.

Module FanSpeed.
Inductive t : Type := Low | Medium | High | Auto.

Definition value (m : t) : Z :=
  match m with
  | Low => 0 | Medium => 1 | High => 2 | Auto => 3
  end.

Definition name (m : t) : string :=
  match m with
  | Low => "Low" | Medium => "Medium" | High => "High" | Auto => "Auto"
  end.

Definition to_object (m : t) : object := Member "FanSpeed" (name m).

(** [FanSpeed(v)]: the member with that value. *)
Definition of_value (v : Z) : result t :=
  match v with
  | 0 => Ok Low | 1 => Ok Medium | 2 => Ok High | 3 => Ok Auto
  | _ => Raise (ValueError (not_a_valid v "FanSpeed"))
  end.
End FanSpeed.

Module SwingMode.
Inductive t : Type := On | Off.

Definition value (m : t) : Z :=
  match m with
  | On => 0 | Off => 1
  end.

Definition name (m : t) : string :=
  match m with
  | On => "On" | Off => "Off"
  end.

Definition to_object (m : t) : object := Member "SwingMode" (name m).
End SwingMode.

Module Power.
Inductive t : Type := On | Off.

Definition value (m : t) : Z :=
  match m with
  | On => 1 | Off => 0
  end.

Definition name (m : t) : string :=
  match m with
  | On => "On" | Off => "Off"
  end.

Definition to_object (m : t) : object := Member "Power" (name m).
End Power.

(** ** The status report *)

Module AirConditioningCompanionStatus.

(** [__init__] stores the response and does nothing else. *)
Record t : Type := init { data : list string }.

Definition air_condition_power (self : t) : result string :=
  getitem (data self) 2.

Definition air_condition_model (self : t) : result string :=
  d0 ← getitem (data self) 0;
  mret (slice 0 2 d0 +:+ slice 8 16 d0).

Definition power (self : t) : result string :=
  d1 ← getitem (data self) 1;
  mret (if String.eqb (slice 2 3 d1) "1" then "on" else "off").

Definition is_on (self : t) : result bool :=
  p ← power self;
  mret (String.eqb p "on").

Definition temperature (self : t) : result Z :=
  d1 ← getitem (data self) 1;
  int_of_str (slice 6 8 d1) 16.

Definition swing_mode (self : t) : result bool :=
  d1 ← getitem (data self) 1;
  mret (String.eqb (slice 5 6 d1) "0").

(** [speed is not None] holds of every [int], so the final
    [return None] is never reached. *)
Definition fan_speed (self : t) : result (option FanSpeed.t) :=
  d1 ← getitem (data self) 1;
  speed ← int_of_str (slice 4 5 d1) 10;
  m ← FanSpeed.of_value speed;
  mret (Some m).

Definition mode (self : t) : result (option OperationMode.t) :=
  d1 ← getitem (data self) 1;
  mode ← int_of_str (slice 3 4 d1) 10;
  m ← OperationMode.of_value mode;
  mret (Some m).

End AirConditioningCompanionStatus.

Module Status := AirConditioningCompanionStatus.

(** ** The command presets *)

Definition STORAGE_SLOT_ID : Z := 30.
Definition POWER_OFF : string := "off".

Definition DEVICE_COMMAND_PRESETS : gmap string (gmap string string) :=
  {[ "fallback" :=
       {[ "deviceType" := "generic";
          "base" := "pomowiswtta0" ]};
     "0180111111" :=
       {[ "deviceType" := "media_1";
          "base" := "pomowiswtt02" ]};
     "0180222221" :=
       {[ "deviceType" := "gree_1";
          "base" := "pomowiswtt02" ]};
     "0100010727" :=
       {[ "deviceType" := "gree_2";
          "base" := "pomowiswtt1100190t1t205002102000t7t0190t1t207002000000t4t0";
          "off" := "01011101004000205002112000D04000207002000000A0" ]};
     "0100004795" :=
       {[ "deviceType" := "gree_8";
          "base" := "pomowiswtt0100090900005002" ]};
     "0180333331" :=
       {[ "deviceType" := "haier_1";
          "base" := "pomowiswtt12" ]};
     "0180666661" :=
       {[ "deviceType" := "aux_1";
          "base" := "pomowiswtt12" ]};
     "0180777771" :=
       {[ "deviceType" := "chigo_1";
          "base" := "pomowiswtt12" ]} ]}.

(** ** The device *)

Section AirConditioningCompanion.

(** [Device.send] belongs to the transport, which is not part of this
    module: it is a parameter, and [R] is whatever it answers. *)
Context {R : Type}.
Variable send : string → list string → R.

Definition send_command (command : string) : R :=
  send "send_cmd" [command].

(** The test of lines 168-169, [and] evaluated left to right. *)
Definition static_off_available (model : string) (power : Power.t)
  : result bool :=
  if Py.eq (Power.to_object power) (Bool false) then
    if contains DEVICE_COMMAND_PRESETS model then
      entry ← subscript DEVICE_COMMAND_PRESETS model;
      mret (contains entry POWER_OFF)
    else mret false
  else mret false.

(** Lines 173-176: the model followed by its base template, or by the
    fallback one. *)
Definition base_configuration (model : string) : result string :=
  if contains DEVICE_COMMAND_PRESETS model then
    entry ← subscript DEVICE_COMMAND_PRESETS model;
    base ← subscript entry "base";
    mret (model +:+ base)
  else
    entry ← subscript DEVICE_COMMAND_PRESETS "fallback";
    base ← subscript entry "base";
    mret (model +:+ base).

(** Lines 178-181: the four replacements by the members' values. *)
Definition substitute_members (configuration : string) (power : Power.t)
    (operation_mode : OperationMode.t) (fan_speed : FanSpeed.t)
    (swing_mode : SwingMode.t) : result string :=
  configuration ← replace configuration (Str "po") (Int (Power.value power));
  configuration ← replace configuration (Str "mo")
                    (Int (OperationMode.value operation_mode));
  configuration ← replace configuration (Str "wi")
                    (Int (FanSpeed.value fan_speed));
  replace configuration (Str "sw") (Int (SwingMode.value swing_mode)).

(** The second argument of line 182:
    [hex(int(target_temperature))[2:]]. *)
Definition tt_text (target_temperature : number) : result string :=
  n ← int_of_number target_temperature;
  mret (slice_from 2 (hex n)).

(** Line 182. *)
Definition substitute_tt (configuration : string)
    (target_temperature : number) : result string :=
  text ← tt_text target_temperature;
  replace configuration (Str "tt") (Str text).

(** Lines 184-185, 188-189 and 192-193 with [k] = 1, 4 and 7:
    [hex((k + int(target_temperature) - 17) % 16)[2:].upper()]. *)
Definition offset_digit (k : Z) (target_temperature : number)
  : result string :=
  n ← int_of_number target_temperature;
  mret (upper (slice_from 2 (hex ((k + n - 17) `mod` 16)))).

(** Lines 184-194. *)
Definition substitute_offsets (configuration : string)
    (target_temperature : number) : result string :=
  temperature ← offset_digit 1 target_temperature;
  configuration ← replace configuration (Str "t1t") (Str temperature);
  temperature ← offset_digit 4 target_temperature;
  configuration ← replace configuration (Str "t4t") (Str temperature);
  temperature ← offset_digit 7 target_temperature;
  replace configuration (Str "t7t") (Str temperature).

Definition send_configuration (model : string) (power : Power.t)
    (operation_mode : OperationMode.t) (target_temperature : number)
    (fan_speed : FanSpeed.t) (swing_mode : SwingMode.t) : result R :=
  static_off ← static_off_available model power;
  if static_off : bool then
    entry ← subscript DEVICE_COMMAND_PRESETS model;
    off ← subscript entry POWER_OFF;
    mret (send_command (model +:+ off))
  else
    configuration ← base_configuration model;
    configuration ← substitute_members configuration power operation_mode
                      fan_speed swing_mode;
    configuration ← substitute_tt configuration target_temperature;
    configuration ← substitute_offsets configuration target_temperature;
    mret (send_command configuration).

End AirConditioningCompanion.

Definition example_response : list string :=
  ["010500978022222102"; "010201190280222221"; "2"].

(** ** Notions the properties are stated with *)

(** The characters [hex] may print after the prefix. *)
Definition is_lower_hex (c : ascii) : bool :=
  let n := nat_of_ascii c in
  (((48 <=? n) && (n <=? 57)) || ((97 <=? n) && (n <=? 102)))%nat.

Fixpoint all_chars (p : ascii → bool) (s : string) : bool :=
  match s with
  | EmptyString => true
  | String c s' => p c && all_chars p s'
  end.

(** The number a string of base-16 digits denotes, read after [acc]. *)
Fixpoint hex_value_from (acc : Z) (s : string) : Z :=
  match s with
  | EmptyString => acc
  | String c s' => hex_value_from (acc * 16 + default 0 (digit_value c)) s'
  end.

Definition hex_value (s : string) : Z := hex_value_from 0 s.

(** No zero stands before another digit. *)
Definition no_padding (s : string) : bool :=
  match s with
  | String c (String _ _) => negb (Ascii.eqb c "0")
  | _ => true
  end.

(** [s] is the lowercase hexadecimal writing of [n], without padding. *)
Definition lowercase_hex_of (n : Z) (s : string) : Prop :=
  s ≠ EmptyString ∧ all_chars is_lower_hex s = true
  ∧ no_padding s = true ∧ hex_value s = n.

(** The single uppercase hexadecimal digit of [0 <= d < 16]. *)
Definition hex_upper_digit (d : Z) : string :=
  slice (Z.to_nat d) (S (Z.to_nat d)) "0123456789ABCDEF".

(** The floor of a finite number. *)
Definition floor_of (x : number) : option Z :=
  match x with
  | IntNum z => Some z
  | FloatNum q => Some (Qfloor q)
  | FloatNaN | FloatInf _ => None
  end.

(** [token] occurs somewhere in [s]. *)
Fixpoint occurs (token s : string) : bool :=
  startswith token s
  || match s with
     | EmptyString => false
     | String _ s' => occurs token s'
     end.

(** A character other than [t]. *)
Definition is_not_t (c : ascii) : bool := negb (Ascii.eqb "t" c).

(** Every character with a code up to 255. *)
Definition all_ascii : list ascii := map ascii_of_nat (seq 0 256).

(** [int(s, 16)], when it gives a number, gives one from -15 to 255. *)
Definition hex_in_range (s : string) : bool :=
  match int_of_str s 16 with
  | Ok n => (-15 <=? n) && (n <=? 255)
  | Raise _ => true
  end.

(** * Properties *)

(** ** Python helpers *)

Lemma getitem_lookup (l : list string) (i : nat) (x : string) :
  l !! i = Some x → getitem l i = Ok x.
Proof. unfold getitem. by intros ->. Qed.

(** A character that [int] reads as a digit below 16 is one of 22. *)
Lemma hex_digit_cases (c : ascii) (d : Z) :
  digit_value c = Some d → d < 16 →
  (c, d) ∈ [("0", 0); ("1", 1); ("2", 2); ("3", 3); ("4", 4); ("5", 5);
            ("6", 6); ("7", 7); ("8", 8); ("9", 9);
            ("a", 10); ("b", 11); ("c", 12); ("d", 13); ("e", 14); ("f", 15);
            ("A", 10); ("B", 11); ("C", 12); ("D", 13); ("E", 14);
            ("F", 15)]%char.
Proof.
  destruct c as [[] [] [] [] [] [] [] []]; vm_compute;
    intros H; try discriminate H; injection H as <-; intros Hd;
    try discriminate Hd; set_solver.
Qed.

Ltac each_digit H :=
  repeat (apply elem_of_cons in H as [H | H];
          [injection H as -> -> |]);
  [.. | by apply elem_of_nil in H].

(** [int] of two base-16 digits. *)
Lemma int_of_str_hex_pair (c1 c2 : ascii) (h l : Z) :
  digit_value c1 = Some h → h < 16 →
  digit_value c2 = Some l → l < 16 →
  int_of_str (String c1 (String c2 EmptyString)) 16 = Ok (16 * h + l).
Proof.
  intros H1 Hh H2 Hl.
  pose proof (hex_digit_cases _ _ H1 Hh) as E1.
  pose proof (hex_digit_cases _ _ H2 Hl) as E2.
  clear H1 Hh H2 Hl.
  each_digit E1; each_digit E2; reflexivity.
Qed.

(** [int] of one decimal digit. *)
Lemma int_of_str_decimal_digit (c : ascii) (d : Z) :
  digit_value c = Some d → d < 10 →
  int_of_str (String c EmptyString) 10 = Ok d.
Proof.
  intros H Hd.
  assert (d < 16) as Hd' by lia.
  pose proof (hex_digit_cases _ _ H Hd') as E.
  each_digit E; try lia; reflexivity.
Qed.

(** ** The status report *)

(** C10: when the second element of the response has fewer than 3
    characters, reading [power] does not fail: the slice [2:3] is empty,
    differs from ['1'], and [power] is ['off'], [is_on] is [False]. *)
Theorem power_of_short_state (response : list string) (state : string) :
  response !! 1%nat = Some state →
  (String.length state < 3)%nat →
  Status.power (Status.init response) = Ok "off"
  ∧ Status.is_on (Status.init response) = Ok false.
Proof.
  intros Hstate Hlen.
  unfold Status.is_on, Status.power; simpl.
  rewrite (getitem_lookup _ _ _ Hstate).
  destruct state as [|a [|b [|c rest]]]; simpl in Hlen; try lia;
    split; reflexivity.
Qed.

Lemma power_of_short_state_witness :
  Status.power (Status.init ["010500978022222102"; "01"; "2"]) = Ok "off"
  ∧ Status.is_on (Status.init ["010500978022222102"; "01"; "2"]) = Ok false.
Proof.
  apply (power_of_short_state _ "01"); [reflexivity | simpl; lia].
Defined.

(** The shape of a state string whose characters 2 and 5 to 7 exist. *)
Lemma state_layout (state : string) (c2 c5 c6 c7 : ascii) :
  String.get 2 state = Some c2 → String.get 5 state = Some c5 →
  String.get 6 state = Some c6 → String.get 7 state = Some c7 →
  slice 2 3 state = String c2 EmptyString
  ∧ slice 5 6 state = String c5 EmptyString
  ∧ slice 6 8 state = String c6 (String c7 EmptyString).
Proof.
  destruct state as [|a0 [|a1 [|a2 [|a3 [|a4 [|a5 [|a6 [|a7 rest]]]]]]]];
    simpl; intros H2 H5 H6 H7; try discriminate.
  injection H2 as ->. injection H5 as ->.
  injection H6 as ->. injection H7 as ->.
  repeat split.
Qed.

Lemma eqb_single (c d : ascii) :
  String.eqb (String c EmptyString) (String d EmptyString) = Ascii.eqb c d.
Proof. simpl. by destruct (Ascii.eqb c d). Qed.

(** C6, as the code has it: for a 3-element response whose second element
    has at least 8 characters, of which those at 6 and 7 are hexadecimal
    digits, [power] is ['on'] exactly when the character at 2 is ['1'],
    [temperature] is the base-16 value of the characters at 6 and 7, and
    [swing_mode] tells whether the character at 5 is ['0']. *)
Theorem status_fields_of_state
    (model state flag : string) (c2 c5 c6 c7 : ascii) (h l : Z) :
  (8 <= String.length state)%nat →
  String.get 2 state = Some c2 → String.get 5 state = Some c5 →
  String.get 6 state = Some c6 → String.get 7 state = Some c7 →
  digit_value c6 = Some h → h < 16 →
  digit_value c7 = Some l → l < 16 →
  Status.power (Status.init [model; state; flag])
    = Ok (if Ascii.eqb c2 "1" then "on" else "off")
  ∧ Status.temperature (Status.init [model; state; flag]) = Ok (16 * h + l)
  ∧ Status.swing_mode (Status.init [model; state; flag])
    = Ok (Ascii.eqb c5 "0").
Proof.
  intros _ H2 H5 H6 H7 Hh Hh16 Hl Hl16.
  destruct (state_layout _ _ _ _ _ H2 H5 H6 H7) as (E2 & E5 & E67).
  unfold Status.power, Status.temperature, Status.swing_mode; simpl.
  rewrite E2, E5, E67, !eqb_single.
  repeat split.
  by apply int_of_str_hex_pair.
Qed.

Lemma status_fields_of_state_witness :
  Status.power (Status.init example_response) = Ok "off"
  ∧ Status.temperature (Status.init example_response) = Ok (16 * 1 + 9)
  ∧ Status.swing_mode (Status.init example_response) = Ok false.
Proof.
  apply (status_fields_of_state _ "010201190280222221" _ "0" "1" "1" "9" 1 9);
    first [reflexivity | simpl; lia | lia].
Defined.

(** C6 as it was stated fails: the characters at 6 and 7 need not be
    digits, and then [temperature] raises instead of giving a number. *)
Lemma temperature_of_non_hex_state :
  (8 <= String.length "010201zz0280222221")%nat
  ∧ ¬ ∃ n : Z,
      Status.temperature
        (Status.init ["010500978022222102"; "010201zz0280222221"; "2"])
      = Ok n.
Proof.
  split; [simpl; lia |].
  intros [n Hn]. vm_compute in Hn. discriminate Hn.
Qed.

(** C7, as the code has it: the response of the comment in [__init__]
    decodes to power ['off'], temperature 25, swing mode [False], fan
    speed [Low], mode [Auto] and model ['01' + '80222221']. *)
Theorem status_of_example_response :
  Status.power (Status.init example_response) = Ok "off"
  ∧ Status.temperature (Status.init example_response) = Ok 25
  ∧ Status.swing_mode (Status.init example_response) = Ok false
  ∧ Status.fan_speed (Status.init example_response) = Ok (Some FanSpeed.Low)
  ∧ Status.mode (Status.init example_response) = Ok (Some OperationMode.Auto)
  ∧ Status.air_condition_model (Status.init example_response)
    = Ok ("01" +:+ "80222221").
Proof. repeat split. Qed.

(** C7 as it was stated fails: power is not ['on'], the mode is not
    [Cool], the model is not ['01' + '97802222']. *)
Lemma example_response_not_as_stated :
  ¬ (Status.power (Status.init example_response) = Ok "on"
     ∧ Status.temperature (Status.init example_response) = Ok 25
     ∧ Status.swing_mode (Status.init example_response) = Ok false
     ∧ Status.fan_speed (Status.init example_response)
       = Ok (Some FanSpeed.Low)
     ∧ Status.mode (Status.init example_response)
       = Ok (Some OperationMode.Cool)
     ∧ Status.air_condition_model (Status.init example_response)
       = Ok ("01" +:+ "97802222")).
Proof. intros [H _]. vm_compute in H. discriminate H. Qed.

(** C8, as the code has it: [__init__] checks no length and decoding is
    done field by field on reading.  When the second element has at most
    6 characters, [temperature] raises the [ValueError] of [int] on the
    empty string, while the snapshot is there and [power] and
    [swing_mode] still answer. *)
Theorem temperature_of_short_state (model state flag : string) :
  (String.length state <= 6)%nat →
  Status.data (Status.init [model; state; flag]) = [model; state; flag]
  ∧ Status.temperature (Status.init [model; state; flag])
    = Raise (ValueError (invalid_literal 16 EmptyString))
  ∧ (∃ p, Status.power (Status.init [model; state; flag]) = Ok p)
  ∧ (∃ b, Status.swing_mode (Status.init [model; state; flag]) = Ok b).
Proof.
  intros Hlen.
  destruct state as [|a0 [|a1 [|a2 [|a3 [|a4 [|a5 [|a6 rest]]]]]]];
    simpl in Hlen; try lia;
    (split; [reflexivity | split; [reflexivity | split; eexists; reflexivity]]).
Qed.

Lemma temperature_of_short_state_witness :
  Status.data (Status.init ["010500978022222102"; "010201"; "2"])
  = ["010500978022222102"; "010201"; "2"]
  ∧ Status.temperature (Status.init ["010500978022222102"; "010201"; "2"])
    = Raise (ValueError (invalid_literal 16 EmptyString))
  ∧ (∃ p, Status.power (Status.init ["010500978022222102"; "010201"; "2"])
          = Ok p)
  ∧ (∃ b, Status.swing_mode
            (Status.init ["010500978022222102"; "010201"; "2"]) = Ok b).
Proof.
  apply (temperature_of_short_state _ "010201" _). simpl. lia.
Defined.

(** C8 as it was stated fails: with 7 characters in the second element
    nothing fails at all, every field of the snapshot can be read. *)
Lemma short_state_decodes :
  (String.length "0112019" < 8)%nat
  ∧ ¬ ∃ e : exn,
      Status.air_condition_power
        (Status.init ["010500978022222102"; "0112019"; "2"]) = Raise e
      ∨ Status.air_condition_model
          (Status.init ["010500978022222102"; "0112019"; "2"]) = Raise e
      ∨ Status.power
          (Status.init ["010500978022222102"; "0112019"; "2"]) = Raise e
      ∨ Status.is_on
          (Status.init ["010500978022222102"; "0112019"; "2"]) = Raise e
      ∨ Status.temperature
          (Status.init ["010500978022222102"; "0112019"; "2"]) = Raise e
      ∨ Status.swing_mode
          (Status.init ["010500978022222102"; "0112019"; "2"]) = Raise e
      ∨ Status.fan_speed
          (Status.init ["010500978022222102"; "0112019"; "2"]) = Raise e
      ∨ Status.mode
          (Status.init ["010500978022222102"; "0112019"; "2"]) = Raise e.
Proof.
  split; [simpl; lia |].
  intros [e H]. vm_compute in H.
  repeat (destruct H as [H | H]; [discriminate H |]). discriminate H.
Qed.

(** The outcome of the read alone. *)
Lemma fan_speed_value_of_digit
    (response : list string) (state : string) (c : ascii) (d : Z) :
  response !! 1%nat = Some state →
  String.get 4 state = Some c →
  digit_value c = Some d → d < 10 →
  (3 < d →
   Status.fan_speed (Status.init response)
   = Raise (ValueError (not_a_valid d "FanSpeed")))
  ∧ (d <= 3 →
     ∃ m, Status.fan_speed (Status.init response) = Ok (Some m)
          ∧ FanSpeed.value m = d).
Proof.
  intros Hstate Hc Hd Hd10.
  assert (slice 4 5 state = String c EmptyString) as Hslice.
  { destruct state as [|a0 [|a1 [|a2 [|a3 [|a4 rest]]]]];
      simpl in Hc; try discriminate. by injection Hc as ->. }
  unfold Status.fan_speed; simpl.
  rewrite (getitem_lookup _ _ _ Hstate); simpl.
  rewrite Hslice, (int_of_str_decimal_digit _ _ Hd Hd10); simpl.
  assert (d < 16) as Hd16 by lia.
  pose proof (hex_digit_cases _ _ Hd Hd16) as E.
  each_digit E; try lia; (split; intros Hr; [try lia; reflexivity |]);
    try lia.
  - by exists FanSpeed.Low.
  - by exists FanSpeed.Medium.
  - by exists FanSpeed.High.
  - by exists FanSpeed.Auto.
Qed.

(** C9, as the code has it: when the character at index 4 of the second
    element is a decimal digit outside 0 to 3, reading [fan_speed] raises
    the [ValueError] of [FanSpeed(...)], but the snapshot is there all
    the same, [__init__] having checked nothing, and [power], [is_on]
    and [swing_mode] still answer; when the digit is within 0 to 3 the
    field is the member of that value, without error. *)
Theorem fan_speed_of_digit
    (response : list string) (state : string) (c : ascii) (d : Z) :
  response !! 1%nat = Some state →
  String.get 4 state = Some c →
  digit_value c = Some d → d < 10 →
  (3 < d →
   Status.fan_speed (Status.init response)
   = Raise (ValueError (not_a_valid d "FanSpeed"))
   ∧ Status.data (Status.init response) = response
   ∧ (∃ p, Status.power (Status.init response) = Ok p)
   ∧ (∃ b, Status.is_on (Status.init response) = Ok b)
   ∧ (∃ b, Status.swing_mode (Status.init response) = Ok b))
  ∧ (d <= 3 →
     ∃ m, Status.fan_speed (Status.init response) = Ok (Some m)
          ∧ FanSpeed.value m = d).
Proof.
  intros Hstate Hc Hd Hd10.
  destruct (fan_speed_value_of_digit _ _ _ _ Hstate Hc Hd Hd10)
    as [Hout Hin].
  split; [| exact Hin].
  intros Hd3. split; [exact (Hout Hd3) |]. split; [reflexivity |].
  unfold Status.is_on, Status.power, Status.swing_mode.
  change (Status.data (Status.init response)) with response.
  rewrite (getitem_lookup _ _ _ Hstate).
  repeat split; eexists; reflexivity.
Qed.

Lemma fan_speed_of_digit_witness :
  (Status.fan_speed
     (Status.init ["010500978022222102"; "010291190280222221"; "2"])
   = Raise (ValueError (not_a_valid 9 "FanSpeed"))
   ∧ Status.data
       (Status.init ["010500978022222102"; "010291190280222221"; "2"])
     = ["010500978022222102"; "010291190280222221"; "2"]
   ∧ (∃ p, Status.power
             (Status.init
                ["010500978022222102"; "010291190280222221"; "2"]) = Ok p)
   ∧ (∃ b, Status.is_on
             (Status.init
                ["010500978022222102"; "010291190280222221"; "2"]) = Ok b)
   ∧ (∃ b, Status.swing_mode
             (Status.init
                ["010500978022222102"; "010291190280222221"; "2"]) = Ok b))
  ∧ ∃ m, Status.fan_speed
           (Status.init ["010500978022222102"; "010221190280222221"; "2"])
         = Ok (Some m)
         ∧ FanSpeed.value m = 2.
Proof.
  split.
  - apply (fan_speed_of_digit _ "010291190280222221" "9" 9);
      first [reflexivity | lia].
  - apply (fan_speed_of_digit _ "010221190280222221" "2" 2);
      first [reflexivity | lia].
Defined.

(** C9 as it was stated fails: with the digit ['9'] at index 4 the read
    of [fan_speed] raises, yet a snapshot has been handed out, and every
    other field of it can be read. *)
Lemma fan_speed_failure_is_not_atomic :
  String.get 4 "010291190280222221" = Some "9"%char
  ∧ Status.fan_speed
      (Status.init ["010500978022222102"; "010291190280222221"; "2"])
    = Raise (ValueError (not_a_valid 9 "FanSpeed"))
  ∧ ¬ ∃ e : exn,
      Status.air_condition_power
        (Status.init ["010500978022222102"; "010291190280222221"; "2"])
      = Raise e
      ∨ Status.air_condition_model
          (Status.init ["010500978022222102"; "010291190280222221"; "2"])
        = Raise e
      ∨ Status.power
          (Status.init ["010500978022222102"; "010291190280222221"; "2"])
        = Raise e
      ∨ Status.is_on
          (Status.init ["010500978022222102"; "010291190280222221"; "2"])
        = Raise e
      ∨ Status.temperature
          (Status.init ["010500978022222102"; "010291190280222221"; "2"])
        = Raise e
      ∨ Status.swing_mode
          (Status.init ["010500978022222102"; "010291190280222221"; "2"])
        = Raise e
      ∨ Status.mode
          (Status.init ["010500978022222102"; "010291190280222221"; "2"])
        = Raise e.
Proof.
  split; [reflexivity |]. split; [reflexivity |].
  intros [e H]. vm_compute in H.
  repeat (destruct H as [H | H]; [discriminate H |]). discriminate H.
Qed.

(** ** The command presets *)

(** Every entry of the table has a base template. *)
Lemma presets_have_base (model : string) (entry : gmap string string) :
  DEVICE_COMMAND_PRESETS !! model = Some entry →
  ∃ base, entry !! "base" = Some base.
Proof.
  unfold DEVICE_COMMAND_PRESETS. intros H.
  repeat (apply lookup_insert_Some in H as [[_ <-] | [_ H]];
          [eexists; reflexivity |]).
  apply lookup_singleton_Some in H as [_ <-]. eexists; reflexivity.
Qed.

(** Lines 173-176 give a configuration for every model: the lookup falls
    back on the entry ["fallback"]. *)
Lemma base_configuration_total (model : string) :
  ∃ base, base_configuration model = Ok (model +:+ base).
Proof.
  unfold base_configuration, contains, subscript.
  destruct (DEVICE_COMMAND_PRESETS !! model) as [entry|] eqn:E.
  - rewrite bool_decide_eq_true_2 by eauto. simpl.
    destruct (presets_have_base _ _ E) as [base ->]. by exists base.
  - rewrite bool_decide_eq_false_2 by (intros [? ?]; discriminate).
    eexists; reflexivity.
Qed.

Lemma base_configuration_unknown (model : string) :
  DEVICE_COMMAND_PRESETS !! model = None →
  base_configuration model = Ok (model +:+ "pomowiswtta0").
Proof.
  intros E. unfold base_configuration, contains.
  rewrite E, bool_decide_eq_false_2 by (intros [? ?]; discriminate).
  reflexivity.
Qed.

(** The only entry with a static power-off command. *)
Lemma presets_with_off (model : string) (entry : gmap string string)
    (off : string) :
  DEVICE_COMMAND_PRESETS !! model = Some entry →
  entry !! POWER_OFF = Some off →
  model = "0100010727"
  ∧ off = "01011101004000205002112000D04000207002000000A0".
Proof.
  unfold DEVICE_COMMAND_PRESETS. intros H Hoff.
  repeat (apply lookup_insert_Some in H as [[<- <-] | [_ H]];
          [vm_compute in Hoff; first [discriminate Hoff | by injection Hoff as <-] |]).
  apply lookup_singleton_Some in H as [_ <-]. discriminate Hoff.
Qed.

(** ** The encoder *)

Section Encoder.

Context {R : Type}.
Variable send : string → list string → R.

(** No member of [Power] is equal to [False], so the static power-off
    command is never chosen. *)
Lemma static_off_never_available (model : string) (power : Power.t) :
  static_off_available model power = Ok false.
Proof. reflexivity. Qed.

(** Line 178 hands an [int] to [str.replace]. *)
Lemma substitute_members_raises (configuration : string) (power : Power.t)
    (operation_mode : OperationMode.t) (fan_speed : FanSpeed.t)
    (swing_mode : SwingMode.t) :
  substitute_members configuration power operation_mode fan_speed swing_mode
  = Raise TypeError.
Proof. reflexivity. Qed.

(** C2: what the code does instead.  For every model and every
    combination of members, [send_configuration] raises [TypeError] at
    the replacement of ['po'], whose second argument is the [int]
    [power.value]; no token is replaced and nothing is sent. *)
Theorem send_configuration_raises (model : string) (power : Power.t)
    (operation_mode : OperationMode.t) (target_temperature : number)
    (fan_speed : FanSpeed.t) (swing_mode : SwingMode.t) :
  send_configuration send model power operation_mode target_temperature
    fan_speed swing_mode = Raise TypeError.
Proof.
  unfold send_configuration.
  rewrite static_off_never_available. simpl.
  destruct (base_configuration_total model) as [base ->].
  reflexivity.
Qed.

(** C1: what the code does instead.  With the one model that has a
    static power-off command and [Power.Off], the comparison
    [power == False] is false, the command is not the static one, and
    the call ends in the [TypeError] of line 178. *)
Theorem power_off_is_not_static :
  Py.eq (Power.to_object Power.Off) (Bool false) = false
  ∧ static_off_available "0100010727" Power.Off = Ok false
  ∧ send_configuration send "0100010727" Power.Off OperationMode.Heat
      (IntNum 17) FanSpeed.Low SwingMode.On
    = Raise TypeError
  ∧ send_configuration send "0100010727" Power.Off OperationMode.Heat
      (IntNum 17) FanSpeed.Low SwingMode.On
    ≠ Ok (send_command send
            ("0100010727"
             +:+ "01011101004000205002112000D04000207002000000A0")).
Proof.
  assert (send_configuration send "0100010727" Power.Off OperationMode.Heat
            (IntNum 17) FanSpeed.Low SwingMode.On = Raise TypeError) as E
    by (vm_compute; reflexivity).
  split; [reflexivity |]. split; [reflexivity |]. split; [exact E |].
  rewrite E. discriminate.
Qed.

(** C5: what the code does instead.  For the unknown model
    ['9999999999'] the fallback template is chosen, and then the call
    raises the [TypeError] of line 178 instead of returning a command. *)
Theorem unknown_model_raises :
  DEVICE_COMMAND_PRESETS !! "9999999999" = None
  ∧ base_configuration "9999999999" = Ok ("9999999999" +:+ "pomowiswtta0")
  ∧ send_configuration send "9999999999" Power.On OperationMode.Cool
      (IntNum 24) FanSpeed.Auto SwingMode.Off
    = Raise TypeError.
Proof. repeat split; vm_compute; reflexivity. Qed.

End Encoder.

(** ** Hexadecimal digits *)

Lemma hex_char_spec (d : Z) :
  0 <= d < 16 →
  is_lower_hex (hex_char d) = true
  ∧ digit_value (hex_char d) = Some d
  ∧ (0 < d → Ascii.eqb (hex_char d) "0" = false).
Proof.
  intros Hd.
  assert (d = 0 ∨ d = 1 ∨ d = 2 ∨ d = 3 ∨ d = 4 ∨ d = 5 ∨ d = 6 ∨ d = 7
          ∨ d = 8 ∨ d = 9 ∨ d = 10 ∨ d = 11 ∨ d = 12 ∨ d = 13 ∨ d = 14
          ∨ d = 15) as Hcases by lia.
  repeat (destruct Hcases as [-> | Hcases]); try subst d;
    (split; [reflexivity | split; [reflexivity | intros; first [lia | reflexivity]]]).
Qed.

Lemma hex_digits_fuel_chars (fuel : nat) :
  ∀ (n : Z) (acc : string),
    0 <= n → all_chars is_lower_hex acc = true →
    all_chars is_lower_hex (hex_digits_fuel fuel n acc) = true.
Proof.
  induction fuel as [|fuel IH]; intros n acc Hn Hacc; simpl; [done |].
  destruct (Z.ltb_spec n 16) as [Hlt | Hge].
  - simpl. rewrite Hacc.
    by destruct (hex_char_spec n ltac:(lia)) as (-> & _).
  - apply IH; [apply Z.div_pos; lia |].
    simpl. rewrite Hacc.
    by destruct (hex_char_spec (n mod 16) ltac:(apply Z.mod_pos_bound; lia))
      as (-> & _).
Qed.

Lemma hex_digits_fuel_value (fuel : nat) :
  ∀ (n : Z) (acc : string),
    0 <= n < 2 ^ Z.of_nat (S fuel) →
    hex_value_from 0 (hex_digits_fuel (S fuel) n acc) = hex_value_from n acc.
Proof.
  induction fuel as [|fuel IH]; intros n acc Hn.
  - change (2 ^ Z.of_nat 1) with 2 in Hn.
    assert ((n <? 16) = true) as E by (apply Z.ltb_lt; lia).
    simpl. rewrite E. simpl.
    by destruct (hex_char_spec n ltac:(lia)) as (_ & -> & _).
  - change (hex_digits_fuel (S (S fuel)) n acc)
      with (if n <? 16 then String (hex_char n) acc
            else hex_digits_fuel (S fuel) (n / 16)
                   (String (hex_char (n mod 16)) acc)).
    destruct (Z.ltb_spec n 16) as [Hlt | Hge].
    + simpl. by destruct (hex_char_spec n ltac:(lia)) as (_ & -> & _).
    + rewrite IH.
      * simpl.
        destruct (hex_char_spec (n mod 16)
                    ltac:(apply Z.mod_pos_bound; lia)) as (_ & -> & _).
        simpl. f_equal. pose proof (Z.div_mod n 16 ltac:(lia)). lia.
      * split; [apply Z.div_pos; lia |].
        apply Z.div_lt_upper_bound; [lia |].
        replace (Z.of_nat (S (S fuel))) with (Z.of_nat (S fuel) + 1) in Hn
          by lia.
        rewrite Z.pow_add_r in Hn by lia. lia.
Qed.

Lemma hex_digits_fuel_head (fuel : nat) :
  ∀ (n : Z) (acc : string),
    0 < n < 2 ^ Z.of_nat (S fuel) →
    ∃ c rest, hex_digits_fuel (S fuel) n acc = String c rest
              ∧ Ascii.eqb c "0" = false.
Proof.
  induction fuel as [|fuel IH]; intros n acc Hn.
  - change (2 ^ Z.of_nat 1) with 2 in Hn.
    assert ((n <? 16) = true) as E by (apply Z.ltb_lt; lia).
    simpl. rewrite E. exists (hex_char n), acc. split; [done |].
    apply hex_char_spec; lia.
  - change (hex_digits_fuel (S (S fuel)) n acc)
      with (if n <? 16 then String (hex_char n) acc
            else hex_digits_fuel (S fuel) (n / 16)
                   (String (hex_char (n mod 16)) acc)).
    destruct (Z.ltb_spec n 16) as [Hlt | Hge].
    + exists (hex_char n), acc. split; [done |].
      apply hex_char_spec; lia.
    + apply IH. split.
      * apply Z.div_str_pos; lia.
      * apply Z.div_lt_upper_bound; [lia |].
        replace (Z.of_nat (S (S fuel))) with (Z.of_nat (S fuel) + 1) in Hn
          by lia.
        rewrite Z.pow_add_r in Hn by lia. lia.
Qed.

Lemma hex_digits_bound (n : Z) :
  0 <= n → n < 2 ^ Z.of_nat (S (Z.to_nat (Z.log2 n))).
Proof.
  intros Hn.
  rewrite Nat2Z.inj_succ, Z2Nat.id by apply Z.log2_nonneg.
  destruct (Z.eq_dec n 0) as [-> | Hne]; [reflexivity |].
  apply Z.log2_spec. lia.
Qed.

(** For [n >= 0], [hex_digits n] is the lowercase hexadecimal writing of
    [n] without padding. *)
Lemma hex_digits_spec (n : Z) : 0 <= n → lowercase_hex_of n (hex_digits n).
Proof.
  intros Hn.
  destruct (Z.eq_dec n 0) as [-> | Hne].
  { split; [discriminate | repeat split]. }
  pose proof (hex_digits_bound n Hn) as Hb.
  unfold lowercase_hex_of, hex_digits, hex_value.
  set (fuel := Z.to_nat (Z.log2 n)) in *.
  destruct (hex_digits_fuel_head fuel n EmptyString ltac:(lia))
    as (c & rest & E & Hc).
  split; [| split; [| split]].
  - rewrite E. discriminate.
  - by apply hex_digits_fuel_chars.
  - rewrite E. simpl. destruct rest; [reflexivity |]. by rewrite Hc.
  - by rewrite hex_digits_fuel_value.
Qed.

(** One digit below 16. *)
Lemma hex_digits_small (n : Z) :
  0 <= n < 16 → String.length (hex_digits n) = 1%nat.
Proof.
  intros Hn. unfold hex_digits. simpl.
  assert ((n <? 16) = true) as -> by (apply Z.ltb_lt; lia).
  reflexivity.
Qed.

(** [hex(n)[2:]] is the digits alone when [n] is not negative. *)
Lemma hex_slice_nonneg (n : Z) : 0 <= n → slice_from 2 (hex n) = hex_digits n.
Proof.
  intros Hn. unfold hex.
  assert ((n <? 0) = false) as -> by (apply Z.ltb_ge; lia).
  reflexivity.
Qed.

(** [hex(x)[2:].upper()] for [0 <= x < 16]. *)
Lemma upper_hex_small (x : Z) :
  0 <= x < 16 → upper (slice_from 2 (hex x)) = hex_upper_digit x.
Proof.
  intros Hx.
  assert (x = 0 ∨ x = 1 ∨ x = 2 ∨ x = 3 ∨ x = 4 ∨ x = 5 ∨ x = 6 ∨ x = 7
          ∨ x = 8 ∨ x = 9 ∨ x = 10 ∨ x = 11 ∨ x = 12 ∨ x = 13 ∨ x = 14
          ∨ x = 15) as Hcases by lia.
  repeat (destruct Hcases as [-> | Hcases]); try subst x; reflexivity.
Qed.

(** [int] truncates towards zero, which is the floor from 0 upwards. *)
Lemma int_of_number_floor (t : number) (n : Z) :
  floor_of t = Some n → 0 <= n → int_of_number t = Ok n.
Proof.
  destruct t as [z | [a b] | | neg]; simpl; intros H Hn;
    try discriminate H; injection H as <-; [reflexivity |].
  f_equal. apply Z.quot_div_nonneg; [| lia].
  destruct (Z.lt_ge_cases a 0) as [Hneg | Hpos]; [| exact Hpos].
  exfalso.
  assert (a / Z.pos b < 0) by (apply Z.div_lt_upper_bound; lia).
  lia.
Qed.

(** ** [str.replace] leaves no ['tt'] behind *)

Lemma occurs_cons (token : string) (c : ascii) (s : string) :
  occurs token (String c s)
  = startswith token (String c s) || occurs token s.
Proof. reflexivity. Qed.

Lemma startswith_t (c : ascii) (s : string) :
  startswith "t" (String c s) = Ascii.eqb "t" c.
Proof. unfold startswith. apply andb_true_r. Qed.

Lemma startswith_tt (c : ascii) (s : string) :
  startswith "tt" (String c s) = Ascii.eqb "t" c && startswith "t" s.
Proof. reflexivity. Qed.

Lemma replace_scan_cons (old new : string) (c : ascii) (s : string) :
  replace_scan old new 0 (String c s)
  = if startswith old (String c s)
    then new +:+ replace_scan old new (String.length old - 1) s
    else String c (replace_scan old new 0 s).
Proof. reflexivity. Qed.

Lemma occurs_tt_app (new r : string) :
  all_chars is_not_t new = true →
  occurs "tt" r = false → occurs "tt" (new +:+ r) = false.
Proof.
  intros Hnew Hr. induction new as [|c new IH]; [exact Hr |].
  apply andb_true_iff in Hnew as [Hc Hnew].
  unfold is_not_t in Hc. apply negb_true_iff in Hc.
  change (String c new +:+ r) with (String c (new +:+ r)).
  rewrite occurs_cons, startswith_tt, Hc. by apply IH.
Qed.

Lemma replace_scan_tt (new : string) :
  all_chars is_not_t new = true →
  ∀ s : string,
    occurs "tt" (replace_scan "tt" new 0 s) = false
    ∧ occurs "tt" (replace_scan "tt" new 1 s) = false
    ∧ (startswith "t" (replace_scan "tt" new 0 s) = true →
       startswith "t" s = true).
Proof.
  intros Hnew. induction s as [|c s (IH0 & IH1 & IHt)]; [done |].
  split; [| split].
  - rewrite replace_scan_cons.
    destruct (startswith "tt" (String c s)) eqn:Hm.
    + by apply occurs_tt_app.
    + rewrite occurs_cons, IH0, orb_false_r, startswith_tt.
      rewrite startswith_tt in Hm.
      destruct (Ascii.eqb "t" c); [| reflexivity].
      destruct (startswith "t" (replace_scan "tt" new 0 s)) eqn:Ht;
        [| reflexivity].
      specialize (IHt eq_refl). rewrite IHt in Hm. discriminate Hm.
  - exact IH0.
  - rewrite replace_scan_cons, startswith_t.
    destruct (startswith "tt" (String c s)) eqn:Hm.
    + intros _. rewrite startswith_tt in Hm.
      by apply andb_true_iff in Hm as [-> _].
    + by rewrite startswith_t.
Qed.

Lemma str_replace_tt (s new : string) :
  all_chars is_not_t new = true →
  occurs "tt" (str_replace s "tt" new) = false.
Proof. intros Hnew. apply (replace_scan_tt new Hnew s). Qed.

Lemma lower_hex_is_not_t (s : string) :
  all_chars is_lower_hex s = true → all_chars is_not_t s = true.
Proof.
  induction s as [|c s IH]; simpl; [done |].
  intros [Hc Hs]%andb_true_iff. rewrite (IH Hs), andb_true_r.
  revert Hc. destruct c as [[] [] [] [] [] [] [] []]; vm_compute; congruence.
Qed.

(** ** The temperature tokens *)

(** X17: when the floor [n] of the target temperature
    is not negative, line 182 replaces every occurrence of ['tt'] by the
    lowercase hexadecimal digits of [n], without padding, which is one
    digit when [n] is below 16; no ['tt'] is left.  This is the
    replacement of that line on a working string; a call with members
    of the enumerations stops before it. *)
Theorem tt_is_hex_of_floor (configuration : string) (t : number) (n : Z) :
  floor_of t = Some n → 0 <= n →
  ∃ text : string,
    tt_text t = Ok text
    ∧ lowercase_hex_of n text
    ∧ (n < 16 → String.length text = 1%nat)
    ∧ substitute_tt configuration t
      = Ok (str_replace configuration "tt" text)
    ∧ occurs "tt" (str_replace configuration "tt" text) = false.
Proof.
  intros Hfloor Hn.
  exists (hex_digits n).
  assert (tt_text t = Ok (hex_digits n)) as Htext.
  { unfold tt_text. rewrite (int_of_number_floor _ _ Hfloor Hn).
    unfold mbind, result_bind, mret, result_ret.
    by rewrite hex_slice_nonneg. }
  pose proof (hex_digits_spec n Hn) as Hspec.
  split; [exact Htext |]. split; [exact Hspec |].
  split; [intros Hlt; apply hex_digits_small; lia |].
  split.
  - unfold substitute_tt. by rewrite Htext.
  - apply str_replace_tt, lower_hex_is_not_t, Hspec.
Qed.

Lemma tt_is_hex_of_floor_witness :
  ∃ text : string,
    tt_text (FloatNum (Qmake 31 2)) = Ok text
    ∧ lowercase_hex_of 15 text
    ∧ (15 < 16 → String.length text = 1%nat)
    ∧ substitute_tt "0180111111pomowiswtt02" (FloatNum (Qmake 31 2))
      = Ok (str_replace "0180111111pomowiswtt02" "tt" text)
    ∧ occurs "tt" (str_replace "0180111111pomowiswtt02" "tt" text) = false.
Proof.
  apply (tt_is_hex_of_floor _ (FloatNum (Qmake 31 2)) 15);
    [reflexivity | lia].
Defined.

(** Below zero the text is no hexadecimal writing: for the temperature
    -1 it is ['x1']. *)
Lemma tt_of_minus_one :
  floor_of (IntNum (-1)) = Some (-1)
  ∧ tt_text (IntNum (-1)) = Ok "x1"
  ∧ ¬ ∃ text : string,
        tt_text (IntNum (-1)) = Ok text ∧ lowercase_hex_of (-1) text.
Proof.
  split; [reflexivity |]. split; [reflexivity |].
  intros (text & Htext & _ & Hchars & _).
  vm_compute in Htext. injection Htext as <-.
  vm_compute in Hchars. discriminate Hchars.
Qed.

(** The single uppercase digit has one character. *)
Lemma hex_upper_digit_length (d : Z) :
  0 <= d < 16 → String.length (hex_upper_digit d) = 1%nat.
Proof.
  intros Hd.
  assert (d = 0 ∨ d = 1 ∨ d = 2 ∨ d = 3 ∨ d = 4 ∨ d = 5 ∨ d = 6 ∨ d = 7
          ∨ d = 8 ∨ d = 9 ∨ d = 10 ∨ d = 11 ∨ d = 12 ∨ d = 13 ∨ d = 14
          ∨ d = 15) as Hcases by lia.
  repeat (destruct Hcases as [-> | Hcases]); try subst d; reflexivity.
Qed.

(** X18: when [int] of the target temperature, which
    truncates towards zero, is its floor [n], the texts that lines
    184-194 put for ['t1t'], ['t4t'] and ['t7t'] on a working string
    are the single uppercase hexadecimal digits of [(k + n - 17) mod 16]
    for [k] = 1, 4 and 7. *)
Theorem offset_digits_of_floor
    (configuration : string) (t : number) (n : Z) :
  floor_of t = Some n → int_of_number t = Ok n →
  offset_digit 1 t = Ok (hex_upper_digit ((1 + n - 17) mod 16))
  ∧ offset_digit 4 t = Ok (hex_upper_digit ((4 + n - 17) mod 16))
  ∧ offset_digit 7 t = Ok (hex_upper_digit ((7 + n - 17) mod 16))
  ∧ substitute_offsets configuration t
    = Ok (str_replace
            (str_replace
               (str_replace configuration
                  "t1t" (hex_upper_digit ((1 + n - 17) mod 16)))
               "t4t" (hex_upper_digit ((4 + n - 17) mod 16)))
            "t7t" (hex_upper_digit ((7 + n - 17) mod 16)))
  ∧ ∀ k : Z,
      String.length (hex_upper_digit ((k + n - 17) mod 16)) = 1%nat.
Proof.
  intros _ Hint.
  assert (∀ k, offset_digit k t
               = Ok (hex_upper_digit ((k + n - 17) mod 16))) as Hdigit.
  { intros k. unfold offset_digit. rewrite Hint.
    unfold mbind, result_bind, mret, result_ret.
    by rewrite upper_hex_small by (apply Z.mod_pos_bound; lia). }
  split; [apply Hdigit |]. split; [apply Hdigit |]. split; [apply Hdigit |].
  split; [unfold substitute_offsets; rewrite !Hdigit; reflexivity |].
  intros k. apply hex_upper_digit_length, Z.mod_pos_bound. lia.
Qed.

Lemma offset_digits_of_floor_witness :
  offset_digit 1 (IntNum 17) = Ok "1"
  ∧ offset_digit 4 (IntNum 17) = Ok "4"
  ∧ offset_digit 7 (IntNum 17) = Ok "7"
  ∧ substitute_offsets
      "0100010727101011100190t1t205002102000t7t0190t1t207002000000t4t0"
      (IntNum 17)
    = Ok (str_replace
            (str_replace
               (str_replace
                  "0100010727101011100190t1t205002102000t7t0190t1t207002000000t4t0"
                  "t1t" "1")
               "t4t" "4")
            "t7t" "7")
  ∧ ∀ k : Z,
      String.length (hex_upper_digit ((k + 17 - 17) mod 16)) = 1%nat.
Proof.
  apply (offset_digits_of_floor _ (IntNum 17) 17); reflexivity.
Defined.

(** Where the floor is not the truncation the digits differ: for
    the temperature -0.5 the floor is -1 and the digit of
    [(1 + -1 - 17) mod 16] is ['F'], while the code computes ['0']. *)
Lemma offset_digit_of_minus_half :
  floor_of (FloatNum (Qmake (-1) 2)) = Some (-1)
  ∧ hex_upper_digit ((1 + -1 - 17) mod 16) = "F"
  ∧ offset_digit 1 (FloatNum (Qmake (-1) 2)) = Ok "0"
  ∧ offset_digit 1 (FloatNum (Qmake (-1) 2))
    ≠ Ok (hex_upper_digit ((1 + -1 - 17) mod 16)).
Proof.
  split; [reflexivity |]. split; [reflexivity |]. split; [reflexivity |].
  vm_compute. discriminate.
Qed.

(** * Further properties of the status report *)

(** X1: when the character at index 3 of the second element is a decimal
    digit, reading [mode] raises the [ValueError] of [OperationMode(...)]
    if the digit is above 4, and gives the member of that value if not. *)
Theorem mode_of_digit
    (response : list string) (state : string) (c : ascii) (d : Z) :
  response !! 1%nat = Some state →
  String.get 3 state = Some c →
  digit_value c = Some d → d < 10 →
  (4 < d →
   Status.mode (Status.init response)
   = Raise (ValueError (not_a_valid d "OperationMode")))
  ∧ (d <= 4 →
     ∃ m, Status.mode (Status.init response) = Ok (Some m)
          ∧ OperationMode.value m = d).
Proof.
  intros Hstate Hc Hd Hd10.
  assert (slice 3 4 state = String c EmptyString) as Hslice.
  { destruct state as [|a0 [|a1 [|a2 [|a3 rest]]]];
      simpl in Hc; try discriminate. by injection Hc as ->. }
  unfold Status.mode; simpl.
  rewrite (getitem_lookup _ _ _ Hstate); simpl.
  rewrite Hslice, (int_of_str_decimal_digit _ _ Hd Hd10); simpl.
  assert (d < 16) as Hd16 by lia.
  pose proof (hex_digit_cases _ _ Hd Hd16) as E.
  each_digit E; try lia; (split; intros Hr; [try lia; reflexivity |]);
    try lia.
  - by exists OperationMode.Heat.
  - by exists OperationMode.Cool.
  - by exists OperationMode.Auto.
  - by exists OperationMode.Dehumidify.
  - by exists OperationMode.Ventilate.
Qed.

Lemma mode_of_digit_witness :
  Status.mode
    (Status.init ["010500978022222102"; "010701190280222221"; "2"])
  = Raise (ValueError (not_a_valid 7 "OperationMode"))
  ∧ ∃ m, Status.mode
           (Status.init ["010500978022222102"; "010401190280222221"; "2"])
         = Ok (Some m)
         ∧ OperationMode.value m = 4.
Proof.
  split.
  - apply (mode_of_digit _ "010701190280222221" "7" 7);
      first [reflexivity | lia].
  - apply (mode_of_digit _ "010401190280222221" "4" 4);
      first [reflexivity | lia].
Defined.

(** X2: when the second element has at most 4 characters there is no
    character at index 4, the slice is empty and reading [fan_speed]
    raises the [ValueError] of [int] on the empty string. *)
Theorem fan_speed_of_short_state (response : list string) (state : string) :
  response !! 1%nat = Some state →
  (String.length state <= 4)%nat →
  Status.fan_speed (Status.init response)
  = Raise (ValueError (invalid_literal 10 EmptyString)).
Proof.
  intros Hstate Hlen.
  unfold Status.fan_speed; simpl.
  rewrite (getitem_lookup _ _ _ Hstate).
  destruct state as [|a0 [|a1 [|a2 [|a3 [|a4 rest]]]]];
    simpl in Hlen; try lia; reflexivity.
Qed.

Lemma fan_speed_of_short_state_witness :
  Status.fan_speed (Status.init ["010500978022222102"; "0102"; "2"])
  = Raise (ValueError (invalid_literal 10 EmptyString)).
Proof.
  apply (fan_speed_of_short_state _ "0102"); [reflexivity | simpl; lia].
Defined.

(** X3: when the second element has at most 3 characters, reading [mode]
    raises the [ValueError] of [int] on the empty string. *)
Theorem mode_of_short_state (response : list string) (state : string) :
  response !! 1%nat = Some state →
  (String.length state <= 3)%nat →
  Status.mode (Status.init response)
  = Raise (ValueError (invalid_literal 10 EmptyString)).
Proof.
  intros Hstate Hlen.
  unfold Status.mode; simpl.
  rewrite (getitem_lookup _ _ _ Hstate).
  destruct state as [|a0 [|a1 [|a2 [|a3 rest]]]];
    simpl in Hlen; try lia; reflexivity.
Qed.

Lemma mode_of_short_state_witness :
  Status.mode (Status.init ["010500978022222102"; "011"; "2"])
  = Raise (ValueError (invalid_literal 10 EmptyString)).
Proof.
  apply (mode_of_short_state _ "011"); [reflexivity | simpl; lia].
Defined.

(** X4: whatever the length of the second element, [is_on] tells whether
    its character at index 2 exists and is ['1'], and [power] is ['on']
    in that case and ['off'] in every other. *)
Theorem is_on_reads_flag (response : list string) (state : string) :
  response !! 1%nat = Some state →
  Status.is_on (Status.init response)
  = Ok (bool_decide (String.get 2 state = Some "1"%char))
  ∧ Status.power (Status.init response)
    = Ok (if bool_decide (String.get 2 state = Some "1"%char)
          then "on" else "off").
Proof.
  intros Hstate.
  unfold Status.is_on, Status.power.
  change (Status.data (Status.init response)) with response.
  rewrite (getitem_lookup _ _ _ Hstate).
  unfold mbind, result_bind, mret, result_ret.
  destruct state as [|a0 [|a1 [|a2 rest]]]; try (split; reflexivity).
  change (slice 2 3 (String a0 (String a1 (String a2 rest))))
    with (String a2 EmptyString).
  change (String.get 2 (String a0 (String a1 (String a2 rest))))
    with (Some a2).
  rewrite eqb_single.
  destruct (Ascii.eqb_spec a2 "1") as [-> | Hne].
  - rewrite bool_decide_eq_true_2 by reflexivity. split; reflexivity.
  - rewrite bool_decide_eq_false_2 by congruence. split; reflexivity.
Qed.

Lemma is_on_reads_flag_witness :
  Status.is_on
    (Status.init ["010507950000257301"; "011001160100002573"; "807"])
  = Ok (bool_decide (String.get 2 "011001160100002573" = Some "1"%char))
  ∧ Status.power
      (Status.init ["010507950000257301"; "011001160100002573"; "807"])
    = Ok (if bool_decide
               (String.get 2 "011001160100002573" = Some "1"%char)
          then "on" else "off").
Proof.
  apply (is_on_reads_flag _ "011001160100002573"). reflexivity.
Defined.

(** X5: a response with fewer than two elements has no state string:
    every property that reads the second element raises [IndexError]. *)
Theorem state_reads_of_short_response (response : list string) :
  (length response < 2)%nat →
  Status.power (Status.init response) = Raise IndexError
  ∧ Status.is_on (Status.init response) = Raise IndexError
  ∧ Status.temperature (Status.init response) = Raise IndexError
  ∧ Status.swing_mode (Status.init response) = Raise IndexError
  ∧ Status.fan_speed (Status.init response) = Raise IndexError
  ∧ Status.mode (Status.init response) = Raise IndexError
  ∧ Status.air_condition_power (Status.init response) = Raise IndexError.
Proof.
  intros Hlen.
  destruct response as [|d0 [|d1 rest]]; simpl in Hlen; try lia;
    repeat split.
Qed.

Lemma state_reads_of_short_response_witness :
  Status.power (Status.init ["010500978022222102"]) = Raise IndexError
  ∧ Status.is_on (Status.init ["010500978022222102"]) = Raise IndexError
  ∧ Status.temperature (Status.init ["010500978022222102"])
    = Raise IndexError
  ∧ Status.swing_mode (Status.init ["010500978022222102"])
    = Raise IndexError
  ∧ Status.fan_speed (Status.init ["010500978022222102"]) = Raise IndexError
  ∧ Status.mode (Status.init ["010500978022222102"]) = Raise IndexError
  ∧ Status.air_condition_power (Status.init ["010500978022222102"])
    = Raise IndexError.
Proof.
  apply (state_reads_of_short_response ["010500978022222102"]). simpl. lia.
Defined.

(** ** Lengths of slices *)

Lemma length_slice_from (n : nat) (s : string) :
  String.length (slice_from n s) = (String.length s - n)%nat.
Proof.
  revert s. induction n as [|n IH]; intros [|c s]; simpl; try lia.
  apply IH.
Qed.

Lemma length_slice_to (n : nat) (s : string) :
  String.length (slice_to n s) = Nat.min n (String.length s).
Proof.
  revert s. induction n as [|n IH]; intros [|c s]; simpl; try lia.
  by rewrite IH.
Qed.

Lemma length_slice (a b : nat) (s : string) :
  String.length (slice a b s)
  = Nat.min (b - a) (String.length s - a).
Proof. unfold slice. by rewrite length_slice_to, length_slice_from. Qed.

Lemma length_app (s1 s2 : string) :
  String.length (s1 +:+ s2) = (String.length s1 + String.length s2)%nat.
Proof.
  induction s1 as [|c s1 IH]; [done |].
  change (String c s1 +:+ s2) with (String c (s1 +:+ s2)).
  simpl. by rewrite IH.
Qed.

Lemma append_empty_r (s : string) : s +:+ EmptyString = s.
Proof.
  induction s as [|c s IH]; [done |].
  change (String c s +:+ EmptyString) with (String c (s +:+ EmptyString)).
  by rewrite IH.
Qed.

(** X6: [air_condition_model] needs only a first element, never fails on
    its length and has at most 10 characters; it has exactly 10 as soon
    as the first element has 16 or more. *)
Theorem air_condition_model_length (response : list string) (d0 : string) :
  response !! 0%nat = Some d0 →
  ∃ model : string,
    Status.air_condition_model (Status.init response) = Ok model
    ∧ (String.length model <= 10)%nat
    ∧ ((16 <= String.length d0)%nat → String.length model = 10%nat)
    ∧ ((String.length d0 <= 8)%nat → model = slice 0 2 d0).
Proof.
  intros H0.
  exists (slice 0 2 d0 +:+ slice 8 16 d0).
  split; [| split; [| split]].
  - unfold Status.air_condition_model.
    change (Status.data (Status.init response)) with response.
    by rewrite (getitem_lookup _ _ _ H0).
  - rewrite length_app, !length_slice. lia.
  - intros Hlen. rewrite length_app, !length_slice. lia.
  - intros Hlen.
    assert (slice 8 16 d0 = EmptyString) as ->.
    { assert (String.length (slice 8 16 d0) = 0%nat) as Hz
        by (rewrite length_slice; lia).
      by destruct (slice 8 16 d0). }
    apply append_empty_r.
Qed.

Lemma air_condition_model_length_witness :
  ∃ model : string,
    Status.air_condition_model
      (Status.init ["010507950000257301"; "011001160100002573"; "807"])
    = Ok model
    ∧ (String.length model <= 10)%nat
    ∧ ((16 <= String.length "010507950000257301")%nat →
       String.length model = 10%nat)
    ∧ ((String.length "010507950000257301" <= 8)%nat →
       model = slice 0 2 "010507950000257301").
Proof.
  apply (air_condition_model_length _ "010507950000257301"). reflexivity.
Defined.

Lemma fan_speed_in_range
    (response : list string) (state : string) (c : ascii) (f : Z) :
  response !! 1%nat = Some state → String.get 4 state = Some c →
  digit_value c = Some f → f <= 3 →
  ∃ v, Status.fan_speed (Status.init response) = Ok (Some v)
       ∧ FanSpeed.value v = f.
Proof.
  intros Hstate Hc Hf Hf3.
  assert (slice 4 5 state = String c EmptyString) as Hslice.
  { destruct state as [|a0 [|a1 [|a2 [|a3 [|a4 rest]]]]];
      simpl in Hc; try discriminate. by injection Hc as ->. }
  unfold Status.fan_speed; simpl.
  rewrite (getitem_lookup _ _ _ Hstate); simpl.
  rewrite Hslice, (int_of_str_decimal_digit _ _ Hf ltac:(lia)); simpl.
  pose proof (hex_digit_cases _ _ Hf ltac:(lia)) as E.
  each_digit E; try lia.
  - by exists FanSpeed.Low.
  - by exists FanSpeed.Medium.
  - by exists FanSpeed.High.
  - by exists FanSpeed.Auto.
Qed.

Lemma mode_in_range
    (response : list string) (state : string) (c : ascii) (m : Z) :
  response !! 1%nat = Some state → String.get 3 state = Some c →
  digit_value c = Some m → m <= 4 →
  ∃ v, Status.mode (Status.init response) = Ok (Some v)
       ∧ OperationMode.value v = m.
Proof.
  intros Hstate Hc Hm Hm4.
  assert (slice 3 4 state = String c EmptyString) as Hslice.
  { destruct state as [|a0 [|a1 [|a2 [|a3 rest]]]];
      simpl in Hc; try discriminate. by injection Hc as ->. }
  unfold Status.mode; simpl.
  rewrite (getitem_lookup _ _ _ Hstate); simpl.
  rewrite Hslice, (int_of_str_decimal_digit _ _ Hm ltac:(lia)); simpl.
  pose proof (hex_digit_cases _ _ Hm ltac:(lia)) as E.
  each_digit E; try lia.
  - by exists OperationMode.Heat.
  - by exists OperationMode.Cool.
  - by exists OperationMode.Auto.
  - by exists OperationMode.Dehumidify.
  - by exists OperationMode.Ventilate.
Qed.

(** X7: a 3-element response whose second element has a mode digit up to
    4 at index 3, a fan digit up to 3 at index 4 and hexadecimal digits
    at 6 and 7 decodes completely: every property returns a value. *)
Theorem well_formed_response_decodes
    (model state flag : string) (c3 c4 c6 c7 : ascii) (m f h l : Z) :
  String.get 3 state = Some c3 → String.get 4 state = Some c4 →
  String.get 6 state = Some c6 → String.get 7 state = Some c7 →
  digit_value c3 = Some m → m <= 4 →
  digit_value c4 = Some f → f <= 3 →
  digit_value c6 = Some h → h < 16 →
  digit_value c7 = Some l → l < 16 →
  (∃ v, Status.air_condition_power (Status.init [model; state; flag]) = Ok v)
  ∧ (∃ v, Status.air_condition_model (Status.init [model; state; flag])
          = Ok v)
  ∧ (∃ v, Status.power (Status.init [model; state; flag]) = Ok v)
  ∧ (∃ v, Status.is_on (Status.init [model; state; flag]) = Ok v)
  ∧ Status.temperature (Status.init [model; state; flag]) = Ok (16 * h + l)
  ∧ (∃ v, Status.swing_mode (Status.init [model; state; flag]) = Ok v)
  ∧ (∃ v, Status.fan_speed (Status.init [model; state; flag]) = Ok (Some v)
          ∧ FanSpeed.value v = f)
  ∧ (∃ v, Status.mode (Status.init [model; state; flag]) = Ok (Some v)
          ∧ OperationMode.value v = m).
Proof.
  intros H3 H4 H6 H7 Hm Hm4 Hf Hf3 Hh Hh16 Hl Hl16.
  assert ([model; state; flag] !! 1%nat = Some state) as Hstate by reflexivity.
  split; [by eexists |]. split; [by eexists |].
  split; [by eexists |]. split; [by eexists |].
  split.
  { assert (slice 6 8 state = String c6 (String c7 EmptyString)) as Hslice.
    { destruct state as [|a0 [|a1 [|a2 [|a3 [|a4 [|a5 [|a6 [|a7 rest]]]]]]]];
        simpl in H6, H7; try discriminate.
      injection H6 as ->. by injection H7 as ->. }
    unfold Status.temperature.
    change (Status.data (Status.init [model; state; flag]))
      with [model; state; flag].
    rewrite (getitem_lookup _ _ _ Hstate).
    unfold mbind, result_bind. rewrite Hslice.
    by apply int_of_str_hex_pair. }
  split; [by eexists |].
  split.
  - by apply (fan_speed_in_range _ _ _ _ Hstate H4 Hf).
  - by apply (mode_in_range _ _ _ _ Hstate H3 Hm).
Qed.

Lemma well_formed_response_decodes_witness :
  (∃ v, Status.air_condition_power (Status.init example_response) = Ok v)
  ∧ (∃ v, Status.air_condition_model (Status.init example_response) = Ok v)
  ∧ (∃ v, Status.power (Status.init example_response) = Ok v)
  ∧ (∃ v, Status.is_on (Status.init example_response) = Ok v)
  ∧ Status.temperature (Status.init example_response) = Ok (16 * 1 + 9)
  ∧ (∃ v, Status.swing_mode (Status.init example_response) = Ok v)
  ∧ (∃ v, Status.fan_speed (Status.init example_response) = Ok (Some v)
          ∧ FanSpeed.value v = 0)
  ∧ (∃ v, Status.mode (Status.init example_response) = Ok (Some v)
          ∧ OperationMode.value v = 2).
Proof.
  apply (well_formed_response_decodes _ "010201190280222221" _
           "2" "0" "1" "9" 2 0 1 9);
    first [reflexivity | lia].
Defined.

(** ** The range of [temperature] *)

Lemma in_all_ascii (c : ascii) : In c all_ascii.
Proof.
  unfold all_ascii. rewrite <- (ascii_nat_embedding c).
  apply in_map, in_seq.
  pose proof (nat_ascii_bounded c). lia.
Qed.

Lemma hex_in_range_short (s : string) :
  (String.length s <= 2)%nat → hex_in_range s = true.
Proof.
  assert (forallb (λ c1, hex_in_range (String c1 EmptyString)
                         && forallb (λ c2, hex_in_range
                                             (String c1 (String c2 EmptyString)))
                              all_ascii) all_ascii = true) as Hall
    by (vm_compute; reflexivity).
  intros Hlen.
  destruct s as [|c1 [|c2 [|c3 rest]]]; simpl in Hlen; try lia.
  - reflexivity.
  - rewrite forallb_forall in Hall.
    specialize (Hall c1 (in_all_ascii c1)).
    by apply andb_true_iff in Hall as [? _].
  - rewrite forallb_forall in Hall.
    specialize (Hall c1 (in_all_ascii c1)).
    apply andb_true_iff in Hall as [_ Hall].
    rewrite forallb_forall in Hall.
    exact (Hall c2 (in_all_ascii c2)).
Qed.

(** X8: whatever the state string, a [temperature] that is read lies
    between -15 and 255: the slice has at most two characters, and [int]
    accepts a sign in the first. *)
Theorem temperature_range (response : list string) (n : Z) :
  Status.temperature (Status.init response) = Ok n → -15 <= n <= 255.
Proof.
  unfold Status.temperature.
  change (Status.data (Status.init response)) with response.
  unfold getitem. destruct (response !! 1%nat) as [state|]; [| discriminate].
  unfold mbind, result_bind. intros Hn.
  assert (hex_in_range (slice 6 8 state) = true) as Hr.
  { apply hex_in_range_short. rewrite length_slice. lia. }
  unfold hex_in_range in Hr. rewrite Hn in Hr.
  apply andb_true_iff in Hr as [H1 H2].
  apply Z.leb_le in H1, H2. lia.
Qed.

Lemma temperature_range_witness : -15 <= -15 <= 255.
Proof.
  apply (temperature_range ["010500978022222102"; "010201-f"; "2"]).
  reflexivity.
Defined.

(** ** The enumerations *)

(** X9: the values of [FanSpeed] and of [OperationMode] are distinct, so
    calling the class on the value of a member gives the member back,
    and a value the class accepts is the value of the member it gives. *)
Theorem enum_of_value_value :
  (∀ m : FanSpeed.t, FanSpeed.of_value (FanSpeed.value m) = Ok m)
  ∧ (∀ m : OperationMode.t,
       OperationMode.of_value (OperationMode.value m) = Ok m)
  ∧ (∀ (v : Z) (m : FanSpeed.t),
       FanSpeed.of_value v = Ok m ↔ FanSpeed.value m = v)
  ∧ (∀ (v : Z) (m : OperationMode.t),
       OperationMode.of_value v = Ok m ↔ OperationMode.value m = v).
Proof.
  split; [by intros [] |]. split; [by intros [] |].
  split; intros v m; (split; [| intros <-; by destruct m]).
  - unfold FanSpeed.of_value. intros H.
    repeat case_match; simplify_eq; reflexivity.
  - unfold OperationMode.of_value. intros H.
    repeat case_match; simplify_eq; reflexivity.
Qed.

(** * Further properties of the encoder *)

(** X10: lines 173-176 never fail.  A model of the table gets its own
    base template, any other the one of ["fallback"]; no [KeyError] can
    come out of the lookups. *)
Theorem base_configuration_lookup (model : string) :
  (∃ r, base_configuration model = Ok r)
  ∧ (∀ entry base,
       DEVICE_COMMAND_PRESETS !! model = Some entry →
       entry !! "base" = Some base →
       base_configuration model = Ok (model +:+ base))
  ∧ (DEVICE_COMMAND_PRESETS !! model = None →
     base_configuration model = Ok (model +:+ "pomowiswtta0")).
Proof.
  split; [| split].
  - destruct (base_configuration_total model) as [base H]. eauto.
  - intros entry base He Hb.
    unfold base_configuration, contains, subscript.
    rewrite He, bool_decide_eq_true_2 by eauto. simpl. by rewrite Hb.
  - apply base_configuration_unknown.
Qed.

(** ** Replacements that find nothing *)

Lemma replace_scan_absent (old new s : string) :
  occurs old s = false → replace_scan old new 0 s = s.
Proof.
  induction s as [|c s IH]; [done |].
  rewrite occurs_cons, replace_scan_cons.
  intros [Hhere Hrest]%orb_false_iff.
  rewrite Hhere. f_equal. by apply IH.
Qed.

Lemma str_replace_absent (s old new : string) :
  old ≠ EmptyString → occurs old s = false → str_replace s old new = s.
Proof.
  intros Hold Habsent. destruct old as [|a old]; [done |].
  by apply replace_scan_absent.
Qed.

(** X11: on a configuration that holds none of ['t1t'], ['t4t'] and
    ['t7t'], as with every template but the one of [gree_2], lines
    184-194 change nothing, whatever the finite temperature. *)
Theorem substitute_offsets_without_tokens
    (configuration : string) (t : number) (n : Z) :
  int_of_number t = Ok n →
  occurs "t1t" configuration = false →
  occurs "t4t" configuration = false →
  occurs "t7t" configuration = false →
  substitute_offsets configuration t = Ok configuration.
Proof.
  intros Hint H1 H4 H7.
  unfold substitute_offsets, offset_digit. rewrite Hint.
  unfold mbind, result_bind, mret, result_ret, replace.
  rewrite (str_replace_absent _ "t1t") by done.
  rewrite (str_replace_absent _ "t4t") by done.
  by rewrite (str_replace_absent _ "t7t").
Qed.

Lemma substitute_offsets_without_tokens_witness :
  substitute_offsets "018011111110311802" (FloatNum (Qmake 49 2))
  = Ok "018011111110311802".
Proof.
  apply (substitute_offsets_without_tokens _ _ 24); reflexivity.
Defined.

(** ** Replacements behind a prefix *)

Lemma replace_scan_prefix (a : ascii) (old new p s : string) :
  all_chars (λ c, negb (Ascii.eqb a c)) p = true →
  replace_scan (String a old) new 0 (p +:+ s)
  = p +:+ replace_scan (String a old) new 0 s.
Proof.
  induction p as [|c p IH]; [done |].
  intros [Hc Hp]%andb_true_iff. apply negb_true_iff in Hc.
  change (String c p +:+ s) with (String c (p +:+ s)).
  rewrite replace_scan_cons.
  change (startswith (String a old) (String c (p +:+ s)))
    with (Ascii.eqb a c && startswith old (p +:+ s)).
  rewrite Hc. simpl andb. cbv iota.
  rewrite (IH Hp). reflexivity.
Qed.

(** X12: a model id without the letter [t], as the ten digits of the
    table are, stays in front through lines 182-194: the temperature
    replacements work on the template behind it only. *)
Theorem temperature_steps_keep_model
    (model template : string) (t : number) (n : Z) :
  all_chars is_not_t model = true →
  int_of_number t = Ok n →
  ∃ r1 r2 : string,
    substitute_tt (model +:+ template) t = Ok (model +:+ r1)
    ∧ r1 = str_replace template "tt" (slice_from 2 (hex n))
    ∧ substitute_offsets (model +:+ r1) t = Ok (model +:+ r2)
    ∧ substitute_offsets r1 t = Ok r2.
Proof.
  intros Hmodel Hint.
  exists (str_replace template "tt" (slice_from 2 (hex n))).
  eexists.
  unfold substitute_tt, tt_text, substitute_offsets, offset_digit.
  rewrite Hint.
  unfold mbind, result_bind, mret, result_ret, replace, str_replace.
  rewrite !(replace_scan_prefix "t") by exact Hmodel.
  repeat split.
Qed.

Lemma temperature_steps_keep_model_witness :
  ∃ r1 r2 : string,
    substitute_tt
      ("0100010727"
       +:+ "1011tt1100190t1t205002102000t7t0190t1t207002000000t4t0")
      (IntNum 24)
    = Ok ("0100010727" +:+ r1)
    ∧ r1 = str_replace
             "1011tt1100190t1t205002102000t7t0190t1t207002000000t4t0"
             "tt" (slice_from 2 (hex 24))
    ∧ substitute_offsets ("0100010727" +:+ r1) (IntNum 24)
      = Ok ("0100010727" +:+ r2)
    ∧ substitute_offsets r1 (IntNum 24) = Ok r2.
Proof.
  apply (temperature_steps_keep_model "0100010727" _ (IntNum 24) 24);
    reflexivity.
Defined.

(** ** Two-digit temperatures *)

Lemma hex_digits_two (n : Z) :
  16 <= n <= 255 →
  hex_digits n
  = String (hex_char (n / 16)) (String (hex_char (n mod 16)) EmptyString).
Proof.
  intros Hn. unfold hex_digits.
  assert (4 <= Z.log2 n) as Hlog
    by (change 4 with (Z.log2 16); apply Z.log2_le_mono; lia).
  destruct (Z.to_nat (Z.log2 n)) as [|k] eqn:Ek; [lia |].
  change (hex_digits_fuel (S (S k)) n EmptyString)
    with (if n <? 16 then String (hex_char n) EmptyString
          else if n / 16 <? 16
               then String (hex_char (n / 16))
                      (String (hex_char (n mod 16)) EmptyString)
               else hex_digits_fuel k (n / 16 / 16)
                      (String (hex_char (n / 16 mod 16))
                         (String (hex_char (n mod 16)) EmptyString))).
  assert ((n <? 16) = false) as -> by (apply Z.ltb_ge; lia).
  assert ((n / 16 <? 16) = true) as ->.
  { apply Z.ltb_lt. apply Z.div_lt_upper_bound; lia. }
  reflexivity.
Qed.

Lemma replace_scan_tt_length (new : string) :
  String.length new = 2%nat →
  ∀ s : string,
    String.length (replace_scan "tt" new 0 s) = String.length s
    ∧ String.length (replace_scan "tt" new 1 s)
      = (String.length s - 1)%nat.
Proof.
  intros Hnew. induction s as [|c s [IH0 IH1]]; [done |].
  split.
  - rewrite replace_scan_cons.
    destruct (startswith "tt" (String c s)) eqn:Hm.
    + rewrite length_app, Hnew.
      change (String.length "tt" - 1)%nat with 1%nat. rewrite IH1.
      rewrite startswith_tt in Hm.
      apply andb_true_iff in Hm as [_ Hm].
      destruct s as [|d s]; [discriminate Hm |]. simpl. lia.
    + simpl. by rewrite IH0.
  - simpl. rewrite IH0. lia.
Qed.

(** X13: for a temperature whose integer part is from 16 to 255, the
    text put for ['tt'] has two characters like the token, so line 182
    keeps the length of the configuration and the place of every
    character that follows. *)
Theorem substitute_tt_keeps_length
    (configuration : string) (t : number) (n : Z) :
  int_of_number t = Ok n → 16 <= n <= 255 →
  ∃ text r : string,
    tt_text t = Ok text ∧ String.length text = 2%nat
    ∧ substitute_tt configuration t = Ok r
    ∧ String.length r = String.length configuration.
Proof.
  intros Hint Hn.
  assert (tt_text t = Ok (hex_digits n)) as Htext.
  { unfold tt_text. rewrite Hint.
    unfold mbind, result_bind, mret, result_ret.
    by rewrite hex_slice_nonneg by lia. }
  assert (String.length (hex_digits n) = 2%nat) as Hlen
    by (by rewrite hex_digits_two).
  exists (hex_digits n), (str_replace configuration "tt" (hex_digits n)).
  split; [exact Htext |]. split; [exact Hlen |].
  split; [unfold substitute_tt; by rewrite Htext |].
  apply (replace_scan_tt_length _ Hlen).
Qed.

Lemma substitute_tt_keeps_length_witness :
  ∃ text r : string,
    tt_text (IntNum 24) = Ok text ∧ String.length text = 2%nat
    ∧ substitute_tt "01801111111031tt02" (IntNum 24) = Ok r
    ∧ String.length r = String.length "01801111111031tt02".
Proof.
  apply (substitute_tt_keeps_length _ (IntNum 24) 24); [reflexivity | lia].
Defined.

(** X14: what the encoder writes for ['tt'] and what the status report
    reads as [temperature] agree: for an integer part [n] from 16 to 255
    the text, put at index 6 of a state string, is read back as [n]. *)
Theorem temperature_round_trip
    (t : number) (n : Z) (model before after flag : string) :
  int_of_number t = Ok n → 16 <= n <= 255 →
  String.length before = 6%nat →
  ∃ text : string,
    tt_text t = Ok text
    ∧ Status.temperature
        (Status.init [model; before +:+ text +:+ after; flag])
      = Ok n.
Proof.
  intros Hint Hn Hbefore.
  exists (hex_digits n). split.
  { unfold tt_text. rewrite Hint.
    unfold mbind, result_bind, mret, result_ret.
    by rewrite hex_slice_nonneg by lia. }
  rewrite hex_digits_two by exact Hn.
  destruct before as [|a0 [|a1 [|a2 [|a3 [|a4 [|a5 [|a6 rest]]]]]]];
    simpl in Hbefore; try lia.
  unfold Status.temperature.
  change (int_of_str
            (String (hex_char (n / 16))
               (String (hex_char (n mod 16)) EmptyString)) 16 = Ok n).
  assert (0 <= n / 16 < 16) as Hhi.
  { split; [apply Z.div_pos; lia | apply Z.div_lt_upper_bound; lia]. }
  assert (0 <= n mod 16 < 16) as Hlo by (apply Z.mod_pos_bound; lia).
  destruct (hex_char_spec _ Hhi) as (_ & Hh & _).
  destruct (hex_char_spec _ Hlo) as (_ & Hl & _).
  rewrite (int_of_str_hex_pair _ _ _ _ Hh ltac:(lia) Hl ltac:(lia)).
  f_equal. pose proof (Z.div_mod n 16 ltac:(lia)). lia.
Qed.

Lemma temperature_round_trip_witness :
  ∃ text : string,
    tt_text (FloatNum (Qmake 51 2)) = Ok text
    ∧ Status.temperature
        (Status.init
           ["010500978022222102"; "010201" +:+ text +:+ "0280222221"; "2"])
      = Ok 25.
Proof.
  apply (temperature_round_trip (FloatNum (Qmake 51 2)) 25);
    [reflexivity | lia | reflexivity].
Defined.

(** X15: when the integer part [n] of the temperature is negative, the
    text put for ['tt'] is the letter [x] followed by the hexadecimal
    writing of [-n]: the slice [2:] of [hex] cuts the sign and the zero
    and leaves the [x] of the prefix. *)
Theorem tt_text_of_negative (t : number) (n : Z) :
  int_of_number t = Ok n → n < 0 →
  tt_text t = Ok (String "x" (hex_digits (- n)))
  ∧ lowercase_hex_of (- n) (hex_digits (- n))
  ∧ ∀ configuration : string,
      substitute_tt configuration t
      = Ok (str_replace configuration "tt" (String "x" (hex_digits (- n)))).
Proof.
  intros Hint Hn.
  assert (tt_text t = Ok (String "x" (hex_digits (- n)))) as Htext.
  { unfold tt_text. rewrite Hint.
    unfold mbind, result_bind, mret, result_ret, hex.
    assert ((n <? 0) = true) as -> by (apply Z.ltb_lt; lia).
    reflexivity. }
  split; [exact Htext |].
  split; [apply hex_digits_spec; lia |].
  intros configuration. unfold substitute_tt. by rewrite Htext.
Qed.

Lemma tt_text_of_negative_witness :
  tt_text (FloatNum (Qmake (-37) 2)) = Ok (String "x" (hex_digits (- -18)))
  ∧ lowercase_hex_of (- -18) (hex_digits (- -18))
  ∧ ∀ configuration : string,
      substitute_tt configuration (FloatNum (Qmake (-37) 2))
      = Ok (str_replace configuration "tt"
              (String "x" (hex_digits (- -18)))).
Proof.
  apply (tt_text_of_negative (FloatNum (Qmake (-37) 2)) (-18));
    [reflexivity | lia].
Defined.

(** X16: whatever the length of the second element, [swing_mode] tells
    whether its character at index 5 exists and is ['0']; a state string
    of 5 characters or fewer reads as [False], without error. *)
Theorem swing_mode_reads_flag (response : list string) (state : string) :
  response !! 1%nat = Some state →
  Status.swing_mode (Status.init response)
  = Ok (bool_decide (String.get 5 state = Some "0"%char)).
Proof.
  intros Hstate.
  unfold Status.swing_mode.
  change (Status.data (Status.init response)) with response.
  rewrite (getitem_lookup _ _ _ Hstate).
  unfold mbind, result_bind, mret, result_ret.
  destruct state as [|a0 [|a1 [|a2 [|a3 [|a4 [|a5 rest]]]]]];
    try reflexivity.
  change (slice 5 6 (String a0 (String a1 (String a2 (String a3
            (String a4 (String a5 rest)))))))
    with (String a5 EmptyString).
  change (String.get 5 (String a0 (String a1 (String a2 (String a3
            (String a4 (String a5 rest)))))))
    with (Some a5).
  rewrite eqb_single.
  destruct (Ascii.eqb_spec a5 "0") as [-> | Hne].
  - by rewrite bool_decide_eq_true_2.
  - by rewrite bool_decide_eq_false_2 by congruence.
Qed.

Lemma swing_mode_reads_flag_witness :
  Status.swing_mode
    (Status.init ["010507950000257301"; "011001160100002573"; "807"])
  = Ok (bool_decide (String.get 5 "011001160100002573" = Some "0"%char)).
Proof.
  apply (swing_mode_reads_flag _ "011001160100002573"). reflexivity.
Defined.

(** * The temperature tokens in a call *)

Section EncoderTemperature.

Context {R : Type}.
Variable send : string → list string → R.

(** C3: what the code does instead.  A call never comes to the
    replacement of ['tt']: with the model ['0180111111'], [Power.On],
    [Cool], [Low] and [SwingMode.On] it raises the [TypeError] of line
    178 for every target temperature, 24 and 15 among them, where line
    182 would have put ['18'] and the single digit ['f'], and the command
    with ['18'] in the place of ['tt'] is not sent. *)
Theorem tt_is_never_substituted :
  (∀ target_temperature : number,
     send_configuration send "0180111111" Power.On OperationMode.Cool
       target_temperature FanSpeed.Low SwingMode.On
     = Raise TypeError)
  ∧ tt_text (IntNum 24) = Ok "18"
  ∧ tt_text (IntNum 15) = Ok "f"
  ∧ send_configuration send "0180111111" Power.On OperationMode.Cool
      (IntNum 24) FanSpeed.Low SwingMode.On
    ≠ Ok (send_command send "018011111111001802").
Proof.
  assert (∀ t : number,
            send_configuration send "0180111111" Power.On OperationMode.Cool
              t FanSpeed.Low SwingMode.On = Raise TypeError) as E
    by (intros t; vm_compute; reflexivity).
  split; [exact E |]. split; [reflexivity |]. split; [reflexivity |].
  rewrite E. discriminate.
Qed.

(** C4: what the code does instead.  A call never comes to the
    replacements of ['t1t'], ['t4t'] and ['t7t']: with the model
    ['0100010727'], whose template alone has these tokens, it raises the
    [TypeError] of line 178 for every target temperature; at 17, where
    lines 184-194 would have put ['1'], ['4'] and ['7'], the command
    with these digits is not sent. *)
Theorem offset_digits_are_never_substituted :
  (∀ target_temperature : number,
     send_configuration send "0100010727" Power.On OperationMode.Cool
       target_temperature FanSpeed.Low SwingMode.On
     = Raise TypeError)
  ∧ offset_digit 1 (IntNum 17) = Ok "1"
  ∧ offset_digit 4 (IntNum 17) = Ok "4"
  ∧ offset_digit 7 (IntNum 17) = Ok "7"
  ∧ send_configuration send "0100010727" Power.On OperationMode.Cool
      (IntNum 17) FanSpeed.Low SwingMode.On
    ≠ Ok (send_command send
            "01000107271100111100190120500210200070190120700200000040").
Proof.
  assert (∀ t : number,
            send_configuration send "0100010727" Power.On OperationMode.Cool
              t FanSpeed.Low SwingMode.On = Raise TypeError) as E
    by (intros t; vm_compute; reflexivity).
  split; [exact E |].
  split; [reflexivity |]. split; [reflexivity |]. split; [reflexivity |].
  rewrite E. discriminate.
Qed.

End EncoderTemperature.
